(** * certbot-dns-do: the Domain-Offensive DNS authenticator

    A shallow embedding of [certbot_dns_do/dns_do.py].  The plugin is a thin
    client over one HTTP endpoint: [add_txt_record] publishes a TXT record,
    [del_txt_record] retracts it, and the [Authenticator] adapter builds a
    client from the loaded credentials for every call.

    Python exceptions are modelled by an error monad over an explicit state
    that holds the authenticator's [credentials] attribute, the object store
    of client instances, the HTTP requests issued so far and the records
    handed to the logger. *)

From Stdlib Require Import ZArith Bool Lia.
From Stdlib Require Import Floats.SpecFloat.
From stdpp Require Import gmap strings list fin_maps pretty.

#[local] Set Warnings "-register-all".
#[local] Open Scope string_scope.
#[local] Open Scope Z_scope.

(** ** Python values

    What [r.json()] can hand back, and what a query-parameter dictionary can
    hold.  A JSON object is a [dict] keyed by strings. *)
Module Py.

Inductive pyval : Type :=
| PyNone
| PyBool (b : bool)
| PyInt (n : Z)
| PyFloat (x : spec_float)
| PyStr (s : string)
| PyList (xs : list pyval)
| PyDict (d : gmap string pyval).

(** Python's [type(v).__name__], used in the interpreter's messages. *)
Definition type_name (v : pyval) : string :=
  match v with
  | PyNone => "NoneType"
  | PyBool _ => "bool"
  | PyInt _ => "int"
  | PyFloat _ => "float"
  | PyStr _ => "str"
  | PyList _ => "list"
  | PyDict _ => "dict"
  end.

(** The float [x] denotes the number one: sign positive and
    [m * 2^e = 1]. *)
Definition float_is_one (x : spec_float) : bool :=
  match x with
  | S754_finite false m e => (e <=? 0) && (Z.pos m =? 2 ^ (- e))
  | _ => false
  end.

(** [v == True].  [bool] is a subclass of [int], so [1 == True] and
    [1.0 == True] hold; every other type compares unequal. *)
Definition eq_True (v : pyval) : bool :=
  match v with
  | PyBool b => b
  | PyInt n => n =? 1
  | PyFloat x => float_is_one x
  | PyNone | PyStr _ | PyList _ | PyDict _ => false
  end.

(** [v != True]. *)
Definition ne_True (v : pyval) : bool := negb (eq_True v).

(** [needle in hay] on strings: substring search. *)
Fixpoint str_contains (needle hay : string) : bool :=
  String.prefix needle hay ||
  match hay with
  | EmptyString => false
  | String _ hay' => str_contains needle hay'
  end.

(** [v == k] for a string [k]. *)
Definition eq_str (k : string) (v : pyval) : bool :=
  match v with
  | PyStr s => bool_decide (s = k)
  | _ => false
  end.

End Py.
Import Py.

(** ** Exceptions *)

(** The classes below [requests.exceptions.RequestException] that the
    transport, [raise_for_status] and [json] raise. *)
Inductive request_exception_class : Type :=
| ConnectionError
| Timeout
| TooManyRedirects
| HTTPError
| JSONDecodeError.

(** An exception with its [str(e)]. *)
Inductive exn : Type :=
| RequestException (cls : request_exception_class) (msg : string)
| PluginError (msg : string)
| TypeError (msg : string)
| ValueError (msg : string)
| KeyError (key : string)
| AttributeError (msg : string).

(** [str(e)]. *)
Definition str_exn (e : exn) : string :=
  match e with
  | RequestException _ msg => msg
  | PluginError msg => msg
  | TypeError msg => msg
  | ValueError msg => msg
  | KeyError key => "'" +:+ key +:+ "'"
  | AttributeError msg => msg
  end.

(** [k in v] and [v[k]] for a string key [k]. *)
Definition py_contains (k : string) (v : pyval) : exn + bool :=
  match v with
  | PyDict d => inr (bool_decide (is_Some (d !! k)))
  | PyList xs => inr (existsb (eq_str k) xs)
  | PyStr s => inr (str_contains k s)
  | PyNone | PyBool _ | PyInt _ | PyFloat _ =>
      inl (TypeError ("argument of type '" +:+ type_name v +:+ "' is not iterable"))
  end.

Definition py_getitem (v : pyval) (k : string) : exn + pyval :=
  match v with
  | PyDict d =>
      match d !! k with
      | Some x => inr x
      | None => inl (KeyError k)
      end
  | PyList _ => inl (TypeError "list indices must be integers or slices, not str")
  | PyStr _ => inl (TypeError "string indices must be integers")
  | PyNone | PyBool _ | PyInt _ | PyFloat _ =>
      inl (TypeError ("'" +:+ type_name v +:+ "' object is not subscriptable"))
  end.

(** ** The [requests] library, as far as the plugin uses it *)

Record http_request : Type := mk_request {
  req_method : string;
  req_url : string;
  req_params : gmap string pyval
}.

(** What [r.json()] does on a response: the decoded value, the library's
    [JSONDecodeError] (a [RequestException] since requests 2.27), or the
    plain [ValueError] of the JSON decoder (older releases). *)
Inductive json_outcome : Type :=
| JsonValue (v : pyval)
| JsonDecodeError (msg : string)
| JsonValueError (msg : string).

Record Response : Type := mk_response {
  status_code : Z;
  reason : string;
  url : string;
  body : json_outcome
}.

(** What [requests.get] does: raise a [RequestException] or return the
    final response. *)
Inductive get_outcome : Type :=
| GetRaises (cls : request_exception_class) (msg : string)
| GetReturns (r : Response).

(** The remote side: given the requests issued before and the current one,
    the outcome of the exchange. *)
Definition transport : Type := list http_request → http_request → get_outcome.

(** [Response.raise_for_status]: an [HTTPError] for 4xx and 5xx, nothing
    otherwise. *)
Definition http_error_msg (kind : string) (r : Response) : string :=
  pretty (status_code r) +:+ " " +:+ kind +:+ ": " +:+ reason r
    +:+ " for url: " +:+ url r.

Definition raise_for_status (r : Response) : exn + unit :=
  if (400 <=? status_code r) && (status_code r <? 500) then
    inl (RequestException HTTPError (http_error_msg "Client Error" r))
  else if (500 <=? status_code r) && (status_code r <? 600) then
    inl (RequestException HTTPError (http_error_msg "Server Error" r))
  else inr tt.

(** [Response.json]. *)
Definition json (r : Response) : exn + pyval :=
  match body r with
  | JsonValue v => inr v
  | JsonDecodeError msg => inl (RequestException JSONDecodeError msg)
  | JsonValueError msg => inl (ValueError msg)
  end.

(** ** Program state and the exception monad *)

(** An instance of the client class: its only attribute is the token. *)
Record _DomainOffensiveClient : Type := mk_client {
  api_token : pyval
}.

(** A call of [logger.error]: the formatted message and the [exc_info]
    flag. *)
Record log_record : Type := mk_log {
  levelname : string;
  message : string;
  exc_info : bool
}.

Record state : Type := mk_state {
  (** the parsed INI file named by [--dns-do-credentials] (host side) *)
  credentials_file : gmap string string;
  (** [Authenticator.credentials], [None] after [Authenticator.__init__] *)
  credentials : option (gmap string string);
  (** the live [_DomainOffensiveClient] objects, by address *)
  heap : gmap nat _DomainOffensiveClient;
  (** the HTTP requests issued so far, oldest first *)
  sent : list http_request;
  (** the records handed to the module's logger, oldest first *)
  logged : list log_record
}.

Definition set_credentials (c : option (gmap string string)) (st : state) : state :=
  mk_state (credentials_file st) c (heap st) (sent st) (logged st).

Definition set_heap (h : gmap nat _DomainOffensiveClient) (st : state) : state :=
  mk_state (credentials_file st) (credentials st) h (sent st) (logged st).

Definition record_sent (q : http_request) (st : state) : state :=
  mk_state (credentials_file st) (credentials st) (heap st) (sent st ++ [q]) (logged st).

Definition record_logged (l : log_record) (st : state) : state :=
  mk_state (credentials_file st) (credentials st) (heap st) (sent st) (logged st ++ [l]).

(** A computation either raises or returns, and leaves a state behind in
    both cases. *)
Definition M (A : Type) : Type := state → (exn + A) * state.

Definition ret {A} (a : A) : M A := fun st => (inr a, st).

Definition raise {A} (e : exn) : M A := fun st => (inl e, st).

Definition bind {A B} (m : M A) (k : A → M B) : M B :=
  fun st =>
    match m st with
    | (inl e, st') => (inl e, st')
    | (inr a, st') => k a st'
    end.

Notation "x <- m ;; k" := (bind m (fun x => k))
  (at level 100, m at next level, right associativity).
Notation "m ;;; k" := (bind m (fun _ => k))
  (at level 100, right associativity).

(** A pure step that may raise. *)
Definition lift {A} (r : exn + A) : M A := fun st => (r, st).

(** [try: body except <class> as e: handler].  [handler e] is [None] when
    [e] is not an instance of the class, and the exception travels on. *)
Definition try_except {A} (body : M A) (handler : exn → option (M A)) : M A :=
  fun st =>
    match body st with
    | (inl e, st') =>
        match handler e with
        | Some h => h st'
        | None => (inl e, st')
        end
    | (inr a, st') => (inr a, st')
    end.

(** [logger.error(fmt, ..., exc_info=flag)], with the message formatted. *)
Definition logger_error (msg : string) (flag : bool) : M unit :=
  fun st => (inr tt, record_logged (mk_log "ERROR" msg flag) st).

Definition ACCOUNT_URL : string := "https://www.do.de/account/letsencrypt/".
Definition API_URL : string := "https://www.do.de/api/letsencrypt".

(** [CredentialsConfiguration.conf]: the value of a key, [None] when the
    file has no such key. *)
Definition conf (c : gmap string string) (var : string) : pyval :=
  match c !! var with
  | Some s => PyStr s
  | None => PyNone
  end.

Section Plugin.

(** The provider's side of every exchange. *)
Variable net : transport.

(** [requests.get(url, params=params)]: one exchange, recorded in
    [sent]. *)
Definition requests_get (url : string) (params : gmap string pyval) : M Response :=
  fun st =>
    let q := mk_request "GET" url params in
    match net (sent st) q with
    | GetRaises cls msg => (inl (RequestException cls msg), record_sent q st)
    | GetReturns r => (inr r, record_sent q st)
    end.

(** *** [_DomainOffensiveClient] *)

(** [__init__]: store the token on the instance. *)
Definition __init__ (self : nat) (token : pyval) : M unit :=
  fun st => (inr tt, set_heap (<[self := mk_client token]> (heap st)) st).

(** [_DomainOffensiveClient(token)]: a new object at an unused address,
    initialised by [__init__]. *)
Definition new_DomainOffensiveClient (token : pyval) : M nat :=
  fun st =>
    let self := fresh (dom (heap st)) in
    (__init__ self token ;;; ret self) st.

(** [self.api_token]. *)
Definition get_api_token (self : nat) : M pyval :=
  fun st =>
    match heap st !! self with
    | Some c => (inr (api_token c), st)
    | None =>
        (inl (AttributeError "'_DomainOffensiveClient' object has no attribute 'api_token'"), st)
    end.

(** The dictionaries of lines 79-81 and 110-112. *)
Definition add_params (token : pyval) (record_name record_content : string)
  : gmap string pyval :=
  {[ "token" := token;
     "domain" := PyStr record_name;
     "value" := PyStr record_content ]}.

Definition del_params (token : pyval) (record_name : string) : gmap string pyval :=
  {[ "token" := token;
     "domain" := PyStr record_name;
     "action" := PyStr "delete" ]}.

(** ['success' not in result or result['success'] != True], with the
    short circuit of [or]. *)
Definition not_successful (result : pyval) : exn + bool :=
  match py_contains "success" result with
  | inl e => inl e
  | inr false => inr true
  | inr true =>
      match py_getitem result "success" with
      | inl e => inl e
      | inr v => inr (ne_True v)
      end
  end.

(** [add_txt_record]: the parameters are built outside the [try]; inside
    it, one GET, the status check, the decoding and the success test.  The
    [PluginError] of the success test is raised inside the [try] but is no
    [RequestException], so the handler lets it pass. *)
Definition add_txt_record (self : nat) (domain record_name record_content : string)
  : M unit :=
  token <- get_api_token self ;;
  let params := add_params token record_name record_content in
  try_except
    (r <- requests_get API_URL params ;;
     lift (raise_for_status r) ;;;
     result <- lift (json r) ;;
     failed <- lift (not_successful result) ;;
     if (failed : bool) then
       logger_error "Encountered error adding TXT record: not successful" false ;;;
       raise (PluginError "Error adding TXT record: not successful")
     else ret tt)
    (fun e =>
       match e with
       | RequestException _ _ =>
           Some (logger_error ("Encountered error adding TXT record: " +:+ str_exn e) true ;;;
                 raise (PluginError ("Error adding TXT record: " +:+ str_exn e)))
       | _ => None
       end).

(** [del_txt_record]: the same exchange with the delete parameters; both
    the failed success test and the handler only log. *)
Definition del_txt_record (self : nat) (domain record_name record_content : string)
  : M unit :=
  token <- get_api_token self ;;
  let params := del_params token record_name in
  try_except
    (r <- requests_get API_URL params ;;
     lift (raise_for_status r) ;;;
     result <- lift (json r) ;;
     failed <- lift (not_successful result) ;;
     if (failed : bool) then
       logger_error "Encountered error deleting TXT record: not successful" false
     else ret tt)
    (fun e =>
       match e with
       | RequestException _ _ =>
           Some (logger_error ("Encountered error deleting TXT record: " +:+ str_exn e) true)
       | _ => None
       end).

(** *** [Authenticator] *)

(** Modelled from the spec: the messages of the host framework's check for
    required credential keys, one for each key the file lacks.  The check
    is not among the plugin's sources; the spec has one required key,
    [api-token]. *)
Definition missing_variables (file : gmap string string)
    (required_variables : list (string * string)) : list string :=
  omap (fun '(var, hint) =>
          match file !! var with
          | Some _ => None
          | None => Some ("Property '" +:+ var +:+ "' not found (should be " +:+ hint +:+ ").")
          end)
       required_variables.

(** Modelled from the spec: the host framework's credential loader
    ([_configure_credentials] of the authenticator's base class), which is
    not among the plugin's sources.  The spec: the token is obtained "from
    the externally-loaded credentials object using a single required key
    ([api-token]); absence of this key is a configuration error surfaced
    before any network call is attempted".  The host reports the error
    through its plugin-error convention. *)
Definition _configure_credentials (key label : string)
    (required_variables : list (string * string)) : M (gmap string string) :=
  fun st =>
    match missing_variables (credentials_file st) required_variables with
    | [] => (inr (credentials_file st), st)
    | msgs =>
        (inl (PluginError ("Missing properties in credentials configuration file: "
                           +:+ String.concat "; " msgs)), st)
    end.

(** [_setup_credentials]: the loader's result becomes
    [self.credentials]. *)
Definition _setup_credentials : M unit :=
  c <- _configure_credentials
         "credentials"
         "Domain-Offensive credentials INI file"
         [("api-token",
           "API token for Domain-Offensive account, obtained from " +:+ ACCOUNT_URL)] ;;
  fun st => (inr tt, set_credentials (Some c) st).

(** [_get_do_client]: a new client for every call, built from
    [self.credentials.conf('api-token')]; without loaded credentials the
    attribute access on [None] raises. *)
Definition _get_do_client : M nat :=
  fun st =>
    match credentials st with
    | Some c => new_DomainOffensiveClient (conf c "api-token") st
    | None => (inl (AttributeError "'NoneType' object has no attribute 'conf'"), st)
    end.

Definition _perform (domain validation_name validation : string) : M unit :=
  client <- _get_do_client ;;
  add_txt_record client domain validation_name validation.

Definition _cleanup (domain validation_name validation : string) : M unit :=
  client <- _get_do_client ;;
  del_txt_record client domain validation_name validation.

(** Modelled from the spec: the loop of the host's challenge driver over
    the challenges of one run, which is not among the plugin's sources.  The
    spec: "host → Adapter.perform(domain, recordName, recordValue) →
    Client.addRecord". *)
Fixpoint perform_all (achalls : list (string * string * string)) : M unit :=
  match achalls with
  | [] => ret tt
  | (domain, validation_name, validation) :: rest =>
      _perform domain validation_name validation ;;;
      perform_all rest
  end.

(** Modelled from the spec: the host's challenge driver, which is not among
    the plugin's sources.  The spec has the credentials acquired "on first
    use", before the first challenge is handled. *)
Definition perform (achalls : list (string * string * string)) : M unit :=
  _setup_credentials ;;;
  perform_all achalls.

End Plugin.

(** ** Vocabulary of the properties *)

(** The request each operation builds for a client holding [token]. *)
Definition add_request (token : pyval) (record_name record_content : string)
  : http_request :=
  mk_request "GET" API_URL (add_params token record_name record_content).

Definition del_request (token : pyval) (record_name : string) : http_request :=
  mk_request "GET" API_URL (del_params token record_name).

(** What the statements between [requests.get] and the end of the [try]
    block compute on a response: an exception, or whether the answer counts
    as a failure. *)
Definition verdict (r : Response) : exn + bool :=
  match raise_for_status r with
  | inl e => inl e
  | inr _ =>
      match json r with
      | inl e => inl e
      | inr result => not_successful result
      end
  end.

Definition add_log (cause : string) (flag : bool) : log_record :=
  mk_log "ERROR" ("Encountered error adding TXT record: " +:+ cause) flag.

Definition del_log (cause : string) (flag : bool) : log_record :=
  mk_log "ERROR" ("Encountered error deleting TXT record: " +:+ cause) flag.

Definition add_error (cause : string) : exn :=
  PluginError ("Error adding TXT record: " +:+ cause).

(** The ways an exchange fails that the [try] block of [add_txt_record]
    is written for, each with the cause string that ends up in the error
    message: the transport raises; the status is 4xx or 5xx; the body does
    not decode and the library says so with its own [JSONDecodeError]; the
    body is a JSON object without a [success] entry, or with one that does
    not compare equal to [True]; the body is a JSON array or string in which
    the membership test finds no ["success"]. *)
Inductive handled_failure : get_outcome → string → Prop :=
| fail_network cls msg :
    handled_failure (GetRaises cls msg) msg
| fail_client_status r :
    400 ≤ status_code r < 500 →
    handled_failure (GetReturns r) (http_error_msg "Client Error" r)
| fail_server_status r :
    500 ≤ status_code r < 600 →
    handled_failure (GetReturns r) (http_error_msg "Server Error" r)
| fail_decode r msg :
    ¬ (400 ≤ status_code r < 600) →
    body r = JsonDecodeError msg →
    handled_failure (GetReturns r) msg
| fail_missing r d :
    ¬ (400 ≤ status_code r < 600) →
    body r = JsonValue (PyDict d) →
    d !! "success" = None →
    handled_failure (GetReturns r) "not successful"
| fail_not_true r d v :
    ¬ (400 ≤ status_code r < 600) →
    body r = JsonValue (PyDict d) →
    d !! "success" = Some v →
    eq_True v = false →
    handled_failure (GetReturns r) "not successful"
| fail_array r xs :
    ¬ (400 ≤ status_code r < 600) →
    body r = JsonValue (PyList xs) →
    PyStr "success" ∉ xs →
    handled_failure (GetReturns r) "not successful"
| fail_string r s :
    ¬ (400 ≤ status_code r < 600) →
    body r = JsonValue (PyStr s) →
    str_contains "success" s = false →
    handled_failure (GetReturns r) "not successful".

(** Success as the specification words it: a 2xx status and a decoded
    object whose success indicator is exactly [true]. *)
Definition success_as_specified (o : get_outcome) : Prop :=
  ∃ r d, o = GetReturns r ∧ 200 ≤ status_code r < 300 ∧
         body r = JsonValue (PyDict d) ∧ d !! "success" = Some (PyBool true).

(** Success as the code decides it: [raise_for_status] lets the status
    through and the decoded object has a [success] entry that compares equal
    to [True]. *)
Definition success_in_code (o : get_outcome) : Prop :=
  ∃ r d v, o = GetReturns r ∧ ¬ (400 ≤ status_code r < 600) ∧
           body r = JsonValue (PyDict d) ∧ d !! "success" = Some v ∧
           eq_True v = true.

(** *** Concrete exchanges used as test points *)

(** A provider that answers every request with the same outcome. *)
Definition always (o : get_outcome) : transport := fun _ _ => o.

Definition json_response (code : Z) (v : pyval) : get_outcome :=
  GetReturns (mk_response code "OK" API_URL (JsonValue v)).

(** An HTTP 500 with a body that is not JSON. *)
Definition server_error : Response :=
  mk_response 500 "Internal Server Error" API_URL
    (JsonDecodeError "Expecting value: line 1 column 1 (char 0)").

(** The challenge of the specification's end-to-end scenarios. *)
Definition example_domain : string := "example.com".
Definition example_name : string := "_acme-challenge.example.com".
Definition example_value : string := "abc123".

(** A state with one live client, holding the token ["tok"]. *)
Definition one_client : state :=
  mk_state ∅ None {[ 0%nat := mk_client (PyStr "tok") ]} [] [].

(** An authenticator whose credentials are loaded, before any call. *)
Definition loaded : state :=
  mk_state {[ "api-token" := "tok" ]} (Some {[ "api-token" := "tok" ]}) ∅ [] [].

(** An authenticator right after construction, with a credentials file
    that lacks the token. *)
Definition unconfigured : state :=
  mk_state {[ "other-key" := "x" ]} None ∅ [] [].

(** * Properties *)

(** ** The two exchanges, step by step *)

Ltac run :=
  unfold add_txt_record, del_txt_record, _perform, _cleanup, _get_do_client,
    new_DomainOffensiveClient, __init__, requests_get, get_api_token, try_except,
    bind, lift, logger_error, raise, ret; cbn beta iota.

Section Exchanges.

Variable net : transport.

Lemma add_txt_record_eq self c domain record_name record_content st :
  heap st !! self = Some c →
  add_txt_record net self domain record_name record_content st =
    let q := add_request (api_token c) record_name record_content in
    let st1 := record_sent q st in
    match net (sent st) q with
    | GetRaises _ msg => (inl (add_error msg), record_logged (add_log msg true) st1)
    | GetReturns r =>
        match verdict r with
        | inl (RequestException _ msg) =>
            (inl (add_error msg), record_logged (add_log msg true) st1)
        | inl e => (inl e, st1)
        | inr true =>
            (inl (add_error "not successful"),
             record_logged (add_log "not successful" false) st1)
        | inr false => (inr tt, st1)
        end
    end.
Proof.
  intros Hself. run. rewrite Hself. cbn zeta.
  unfold add_request, verdict.
  destruct (net _ _) as [cls msg|r]; [reflexivity|].
  destruct (raise_for_status r) as [[]|[]]; try reflexivity.
  destruct (json r) as [[]|result]; try reflexivity.
  destruct (not_successful result) as [[]|[]]; reflexivity.
Qed.

Lemma del_txt_record_eq self c domain record_name record_content st :
  heap st !! self = Some c →
  del_txt_record net self domain record_name record_content st =
    let q := del_request (api_token c) record_name in
    let st1 := record_sent q st in
    match net (sent st) q with
    | GetRaises _ msg => (inr tt, record_logged (del_log msg true) st1)
    | GetReturns r =>
        match verdict r with
        | inl (RequestException _ msg) => (inr tt, record_logged (del_log msg true) st1)
        | inl e => (inl e, st1)
        | inr true => (inr tt, record_logged (del_log "not successful" false) st1)
        | inr false => (inr tt, st1)
        end
    end.
Proof.
  intros Hself. run. rewrite Hself. cbn zeta.
  unfold del_request, verdict.
  destruct (net _ _) as [cls msg|r]; [reflexivity|].
  destruct (raise_for_status r) as [[]|[]]; try reflexivity.
  destruct (json r) as [[]|result]; try reflexivity.
  destruct (not_successful result) as [[]|[]]; reflexivity.
Qed.

(** A client whose address is not live has no [api_token]: the attribute
    lookup raises before anything else happens. *)
Lemma add_txt_record_dangling self domain record_name record_content st :
  heap st !! self = None →
  snd (add_txt_record net self domain record_name record_content st) = st.
Proof. intros Hself. run. rewrite Hself. reflexivity. Qed.

Lemma del_txt_record_dangling self domain record_name record_content st :
  heap st !! self = None →
  snd (del_txt_record net self domain record_name record_content st) = st.
Proof. intros Hself. run. rewrite Hself. reflexivity. Qed.

End Exchanges.

(** ** Facts about the library model *)

Lemma raise_for_status_ok r :
  ¬ (400 ≤ status_code r < 600) → raise_for_status r = inr tt.
Proof.
  intros H. unfold raise_for_status.
  destruct (400 <=? status_code r) eqn:E1, (status_code r <? 500) eqn:E2,
    (500 <=? status_code r) eqn:E3, (status_code r <? 600) eqn:E4;
    cbn; try reflexivity; exfalso; apply H; lia.
Qed.

Lemma raise_for_status_client r :
  400 ≤ status_code r < 500 →
  raise_for_status r = inl (RequestException HTTPError (http_error_msg "Client Error" r)).
Proof.
  intros [H1 H2]. unfold raise_for_status.
  apply Z.leb_le in H1. apply Z.ltb_lt in H2. rewrite H1, H2. reflexivity.
Qed.

Lemma raise_for_status_server r :
  500 ≤ status_code r < 600 →
  raise_for_status r = inl (RequestException HTTPError (http_error_msg "Server Error" r)).
Proof.
  intros [H1 H2]. unfold raise_for_status.
  replace (status_code r <? 500) with false by (symmetry; apply Z.ltb_ge; lia).
  rewrite andb_false_r.
  apply Z.leb_le in H1. apply Z.ltb_lt in H2. rewrite H1, H2. reflexivity.
Qed.

(** [raise_for_status] raises exactly on 4xx and 5xx, and then an
    [HTTPError]. *)
Lemma raise_for_status_cases r :
  (¬ (400 ≤ status_code r < 600) ∧ raise_for_status r = inr tt) ∨
  (400 ≤ status_code r < 500 ∧
   raise_for_status r = inl (RequestException HTTPError (http_error_msg "Client Error" r))) ∨
  (500 ≤ status_code r < 600 ∧
   raise_for_status r = inl (RequestException HTTPError (http_error_msg "Server Error" r))).
Proof.
  destruct (decide (400 ≤ status_code r < 500)) as [H|H].
  { right; left. split; [exact H | apply raise_for_status_client, H]. }
  destruct (decide (500 ≤ status_code r < 600)) as [H'|H'].
  { right; right. split; [exact H' | apply raise_for_status_server, H']. }
  left. split; [lia | apply raise_for_status_ok; lia].
Qed.

(** On a JSON object the membership test and the subscript agree, and the
    failure test is decided by the [success] entry alone. *)
Lemma not_successful_dict d :
  not_successful (PyDict d) =
    inr (match d !! "success" with
         | Some v => ne_True v
         | None => true
         end).
Proof.
  unfold not_successful, py_contains, py_getitem.
  destruct (d !! "success") as [v|] eqn:E.
  - rewrite bool_decide_eq_true_2 by eauto. reflexivity.
  - rewrite bool_decide_eq_false_2 by (intros [? ?]; discriminate). reflexivity.
Qed.

(** Membership of a string in a list compares the elements with [==]. *)
Lemma eq_str_true k v : eq_str k v = true ↔ v = PyStr k.
Proof.
  destruct v; cbn; try (split; [discriminate | intros [=]]).
  rewrite bool_decide_eq_true. split; [intros -> | intros [= ->]]; reflexivity.
Qed.

Lemma existsb_eq_str_false k (xs : list pyval) :
  existsb (eq_str k) xs = false ↔ PyStr k ∉ xs.
Proof.
  induction xs as [|x xs IH]; cbn.
  - split; [intros _; apply not_elem_of_nil | reflexivity].
  - rewrite orb_false_iff, IH, not_elem_of_cons.
    split; intros [H1 H2]; (split; [|exact H2]).
    + intros Hx. symmetry in Hx. apply eq_str_true in Hx. congruence.
    + destruct (eq_str k x) eqn:E; [|reflexivity].
      apply eq_str_true in E. congruence.
Qed.

(** What passes the failure test without raising, and what fails it. *)
Lemma not_successful_true result :
  not_successful result = inr true →
  (∃ d, result = PyDict d ∧
        (d !! "success" = None ∨ ∃ v, d !! "success" = Some v ∧ eq_True v = false)) ∨
  (∃ xs, result = PyList xs ∧ PyStr "success" ∉ xs) ∨
  (∃ s, result = PyStr s ∧ str_contains "success" s = false).
Proof.
  destruct result as [| | | | s | xs | d]; try discriminate.
  - unfold not_successful; cbn. destruct (str_contains _ _) eqn:E; [discriminate|].
    intros _. right; right. eauto.
  - unfold not_successful; cbn. destruct (existsb _ _) eqn:E; [discriminate|].
    intros _. right; left. exists xs. split; [reflexivity|].
    apply existsb_eq_str_false, E.
  - rewrite not_successful_dict. intros [= H]. left. exists d. split; [reflexivity|].
    destruct (d !! "success") as [v|]; [right | left; reflexivity].
    exists v. split; [reflexivity|].
    unfold ne_True in H. destruct (eq_True v); [discriminate | reflexivity].
Qed.

(** The failure test raises nothing but a [TypeError]. *)
Lemma not_successful_raises result e :
  not_successful result = inl e → ∃ msg, e = TypeError msg.
Proof.
  destruct result as [| | | | s | xs | d]; unfold not_successful; cbn;
    try (intros [= <-]; eauto; fail).
  - destruct (str_contains _ _); [intros [= <-]; eauto | discriminate].
  - destruct (existsb _ _); [intros [= <-]; eauto | discriminate].
  - destruct (bool_decide _) eqn:E; [|discriminate].
    apply bool_decide_eq_true in E. destruct E as [v ->]. discriminate.
Qed.

(** Only a dictionary passes the failure test without raising and without
    counting as a failure. *)
Lemma not_successful_false result :
  not_successful result = inr false →
  ∃ d v, result = PyDict d ∧ d !! "success" = Some v ∧ eq_True v = true.
Proof.
  destruct result as [| | | | s | xs | d]; try discriminate.
  - unfold not_successful; cbn. destruct (str_contains _ _); discriminate.
  - unfold not_successful; cbn. destruct (existsb _ _); discriminate.
  - rewrite not_successful_dict. destruct (d !! "success") as [v|] eqn:E; [|discriminate].
    intros [= H]. exists d, v. repeat split; [exact E|].
    unfold ne_True in H. destruct (eq_True v); [reflexivity | discriminate].
Qed.

(** The values that compare equal to [True]. *)
Lemma eq_True_cases v :
  eq_True v = true ↔
  v = PyBool true ∨ v = PyInt 1 ∨ ∃ x, v = PyFloat x ∧ float_is_one x = true.
Proof.
  split.
  - destruct v as [| b | n | x | | |]; cbn; try discriminate.
    + intros ->. left; reflexivity.
    + intros H%Z.eqb_eq. subst. right; left; reflexivity.
    + intros H. right; right. eauto.
  - intros [-> | [-> | [x [-> H]]]]; cbn; [reflexivity | reflexivity | exact H].
Qed.

(** The verdict on the failures [add_txt_record] is written for, and on
    success. *)
Lemma verdict_failure r cause :
  handled_failure (GetReturns r) cause →
  (∃ cls, verdict r = inl (RequestException cls cause)) ∨
  (verdict r = inr true ∧ cause = "not successful").
Proof.
  unfold verdict, json. inversion 1; subst.
  - left. rewrite raise_for_status_client by assumption. eauto.
  - left. rewrite raise_for_status_server by assumption. eauto.
  - left. rewrite raise_for_status_ok by assumption.
    match goal with H : body r = _ |- _ => rewrite H end. eauto.
  - right. rewrite raise_for_status_ok by assumption.
    match goal with H : body r = _ |- _ => rewrite H end.
    rewrite not_successful_dict.
    match goal with H : _ !! _ = _ |- _ => rewrite H end. split; reflexivity.
  - right. rewrite raise_for_status_ok by assumption.
    match goal with H : body r = _ |- _ => rewrite H end.
    rewrite not_successful_dict.
    match goal with H : _ !! _ = Some _ |- _ => rewrite H end.
    unfold ne_True.
    match goal with H : eq_True _ = false |- _ => rewrite H end. split; reflexivity.
  - right. rewrite raise_for_status_ok by assumption.
    match goal with H : body r = _ |- _ => rewrite H end.
    unfold not_successful; cbn.
    rewrite (proj2 (existsb_eq_str_false _ _)) by assumption. split; reflexivity.
  - right. rewrite raise_for_status_ok by assumption.
    match goal with H : body r = _ |- _ => rewrite H end.
    unfold not_successful; cbn.
    match goal with H : str_contains _ _ = false |- _ => rewrite H end.
    split; reflexivity.
Qed.

Lemma verdict_success r :
  verdict r = inr false ↔ success_in_code (GetReturns r).
Proof.
  unfold verdict, json, success_in_code. split.
  - destruct (raise_for_status_cases r) as [[Hs ->] | [[Hs ->] | [Hs ->]]];
      try discriminate.
    destruct (body r) as [result| |] eqn:Hb; try discriminate.
    intros (d & v & -> & Hd & Hv)%not_successful_false.
    exists r, d, v. auto.
  - intros (r' & d & v & [= <-] & Hs & Hb & Hd & Hv).
    rewrite raise_for_status_ok by assumption. rewrite Hb, not_successful_dict, Hd.
    unfold ne_True. rewrite Hv. reflexivity.
Qed.

(** ** The adapter *)

Lemma fresh_client_unused st : heap st !! fresh (dom (heap st)) = None.
Proof. apply not_elem_of_dom, is_fresh. Qed.

Lemma _get_do_client_loaded st creds :
  credentials st = Some creds →
  _get_do_client st =
    (inr (fresh (dom (heap st))),
     set_heap (<[fresh (dom (heap st)) := mk_client (conf creds "api-token")]> (heap st)) st).
Proof. intros H. unfold _get_do_client. rewrite H. reflexivity. Qed.

Lemma _get_do_client_unloaded st :
  credentials st = None →
  _get_do_client st =
    (inl (AttributeError "'NoneType' object has no attribute 'conf'"), st).
Proof. intros H. unfold _get_do_client. rewrite H. reflexivity. Qed.

(** [_perform] and [_cleanup] add no handler of their own: the outcome of
    the client's method, result and state, is theirs. *)
Lemma _perform_eq net domain validation_name validation st :
  _perform net domain validation_name validation st =
    match _get_do_client st with
    | (inr client, st1) => add_txt_record net client domain validation_name validation st1
    | (inl e, st1) => (inl e, st1)
    end.
Proof. unfold _perform, bind. destruct (_get_do_client st) as [[e|client] st1]; reflexivity. Qed.

Lemma _cleanup_eq net domain validation_name validation st :
  _cleanup net domain validation_name validation st =
    match _get_do_client st with
    | (inr client, st1) => del_txt_record net client domain validation_name validation st1
    | (inl e, st1) => (inl e, st1)
    end.
Proof. unfold _cleanup, bind. destruct (_get_do_client st) as [[e|client] st1]; reflexivity. Qed.

(** ** Failures of the add operation *)

Lemma add_txt_record_failure net self c domain record_name record_content st cause :
  heap st !! self = Some c →
  handled_failure (net (sent st) (add_request (api_token c) record_name record_content)) cause →
  ∃ flag,
    add_txt_record net self domain record_name record_content st =
      (inl (add_error cause),
       record_logged (add_log cause flag)
         (record_sent (add_request (api_token c) record_name record_content) st)).
Proof.
  intros Hself Hfail. rewrite (add_txt_record_eq net self c) by exact Hself. cbn zeta.
  destruct (net _ _) as [cls msg|r] eqn:Hnet.
  - inversion Hfail; subst. eauto.
  - destruct (verdict_failure r cause Hfail) as [[cls ->] | [-> ->]]; eauto.
Qed.

(** C1 (as amended).  When the exchange fails in one of the ways the [try]
    block is written for -- the transport raises, the status is 4xx or 5xx,
    the body does not decode and the library raises its own
    [JSONDecodeError], or the decoded body is an object (or an array or a
    string) in which no [success] entry equal to [True] is found --
    [add_txt_record] raises [PluginError] with the message
    ["Error adding TXT record: "] followed by the cause, and [_perform],
    which has no handler of its own, ends exactly as the client's method
    does. *)
Theorem add_failure_raises_PluginError
    net self c domain record_name record_content st cause :
  heap st !! self = Some c →
  handled_failure (net (sent st) (add_request (api_token c) record_name record_content)) cause →
  fst (add_txt_record net self domain record_name record_content st) =
    inl (PluginError ("Error adding TXT record: " +:+ cause)) ∧
  ∀ st0, _perform net domain record_name record_content st0 =
           match _get_do_client st0 with
           | (inr client, st1) =>
               add_txt_record net client domain record_name record_content st1
           | (inl e, st1) => (inl e, st1)
           end.
Proof.
  intros Hself Hfail. split.
  - destruct (add_txt_record_failure net self c domain record_name record_content st cause)
      as [flag ->]; [assumption | assumption | reflexivity].
  - intros st0. apply _perform_eq.
Qed.

Lemma add_failure_raises_PluginError_witness :
  heap one_client !! 0%nat = Some (mk_client (PyStr "tok")) ∧
  handled_failure
    (always (GetReturns server_error) (sent one_client)
       (add_request (PyStr "tok") example_name example_value))
    (http_error_msg "Server Error" server_error) ∧
  fst (add_txt_record (always (GetReturns server_error)) 0
         example_domain example_name example_value one_client) =
    inl (PluginError ("Error adding TXT record: "
                      +:+ http_error_msg "Server Error" server_error)).
Proof.
  assert (H1 : heap one_client !! 0%nat = Some (mk_client (PyStr "tok")))
    by reflexivity.
  assert (H2 : handled_failure
                 (always (GetReturns server_error) (sent one_client)
                    (add_request (api_token (mk_client (PyStr "tok")))
                       example_name example_value))
                 (http_error_msg "Server Error" server_error))
    by (apply fail_server_status; cbn; lia).
  split; [exact H1 | split; [exact H2|]].
  exact (proj1 (add_failure_raises_PluginError
                  (always (GetReturns server_error)) 0%nat (mk_client (PyStr "tok"))
                  example_domain example_name example_value one_client _ H1 H2)).
Defined.

(** C1 as stated fails on the status: a 300 answer is not a 2xx answer, yet
    [raise_for_status] lets it through and a body reporting success makes the
    call return normally. *)
Lemma add_returns_on_status_300 :
  ¬ (200 ≤ 300 < 300) ∧
  fst (add_txt_record (always (json_response 300 (PyDict {[ "success" := PyBool true ]}))) 0
         example_domain example_name example_value one_client) = inr tt.
Proof. split; [lia | reflexivity]. Qed.

(** ** Failures of the delete operation *)

(** The failures the [try] block is written for are logged and swallowed. *)
Lemma del_txt_record_swallows net self c domain record_name record_content st cause :
  heap st !! self = Some c →
  handled_failure (net (sent st) (del_request (api_token c) record_name)) cause →
  ∃ flag,
    del_txt_record net self domain record_name record_content st =
      (inr tt,
       record_logged (del_log cause flag)
         (record_sent (del_request (api_token c) record_name) st)).
Proof.
  intros Hself Hfail. rewrite (del_txt_record_eq net self c) by exact Hself. cbn zeta.
  destruct (net _ _) as [cls msg|r] eqn:Hnet.
  - inversion Hfail; subst. eauto.
  - destruct (verdict_failure r cause Hfail) as [[cls ->] | [-> ->]]; eauto.
Qed.

(** C2 (the code departs from it).  A 200 answer whose body is the JSON
    value [null] makes the membership test raise a [TypeError], which the
    handler for [RequestException] does not catch: [del_txt_record] raises,
    and so does [_cleanup]. *)
Theorem del_txt_record_raises_on_null_body :
  fst (del_txt_record (always (json_response 200 PyNone)) 0
         example_domain example_name example_value one_client) =
    inl (TypeError "argument of type 'NoneType' is not iterable") ∧
  fst (_cleanup (always (json_response 200 PyNone))
         example_domain example_name example_value loaded) =
    inl (TypeError "argument of type 'NoneType' is not iterable").
Proof. split; vm_compute; reflexivity. Qed.

(** ** The add request and its success condition *)

Lemma add_params_lookup token record_name record_content k :
  add_params token record_name record_content !! k =
    if decide (k = "token") then Some token
    else if decide (k = "domain") then Some (PyStr record_name)
    else if decide (k = "value") then Some (PyStr record_content)
    else None.
Proof.
  unfold add_params. rewrite !lookup_insert, lookup_singleton.
  repeat case_decide; congruence.
Qed.

Lemma del_params_lookup token record_name k :
  del_params token record_name !! k =
    if decide (k = "token") then Some token
    else if decide (k = "domain") then Some (PyStr record_name)
    else if decide (k = "action") then Some (PyStr "delete")
    else None.
Proof.
  unfold del_params. rewrite !lookup_insert, lookup_singleton.
  repeat case_decide; congruence.
Qed.

Lemma add_txt_record_sent net self c domain record_name record_content st :
  heap st !! self = Some c →
  sent (snd (add_txt_record net self domain record_name record_content st)) =
    (sent st ++ [add_request (api_token c) record_name record_content])%list.
Proof.
  intros Hself. rewrite (add_txt_record_eq net self c) by exact Hself. cbn zeta.
  destruct (net _ _) as [cls msg|r]; [reflexivity|].
  destruct (verdict r) as [[]|[]]; reflexivity.
Qed.

Lemma del_txt_record_sent net self c domain record_name record_content st :
  heap st !! self = Some c →
  sent (snd (del_txt_record net self domain record_name record_content st)) =
    (sent st ++ [del_request (api_token c) record_name])%list.
Proof.
  intros Hself. rewrite (del_txt_record_eq net self c) by exact Hself. cbn zeta.
  destruct (net _ _) as [cls msg|r]; [reflexivity|].
  destruct (verdict r) as [[]|[]]; reflexivity.
Qed.

Lemma add_txt_record_returns net self c domain record_name record_content st :
  heap st !! self = Some c →
  fst (add_txt_record net self domain record_name record_content st) = inr tt ↔
  success_in_code (net (sent st) (add_request (api_token c) record_name record_content)).
Proof.
  intros Hself. rewrite (add_txt_record_eq net self c) by exact Hself. cbn zeta.
  destruct (net _ _) as [cls msg|r] eqn:Hnet.
  - split; [discriminate|]. intros (r & d & v & [=] & _).
  - rewrite <- verdict_success.
    destruct (verdict r) as [[]|[]]; cbn; split; congruence.
Qed.

(** C3 (as amended).  [add_txt_record] issues one GET to the fixed endpoint
    whose query parameters are exactly [token], [domain] (carrying the record
    name) and [value] (carrying the record content), and it returns without
    error if and only if the transport hands back a response whose status is
    not 4xx or 5xx and whose body decodes to an object with a [success] entry
    that compares equal to [True] -- the boolean [true], the integer one, or
    a float equal to one. *)
Theorem add_request_and_success_condition
    net self c domain record_name record_content st :
  heap st !! self = Some c →
  let q := add_request (api_token c) record_name record_content in
  sent (snd (add_txt_record net self domain record_name record_content st)) =
    (sent st ++ [q])%list ∧
  req_method q = "GET" ∧
  req_url q = API_URL ∧
  (∀ k, req_params q !! k =
          if decide (k = "token") then Some (api_token c)
          else if decide (k = "domain") then Some (PyStr record_name)
          else if decide (k = "value") then Some (PyStr record_content)
          else None) ∧
  (fst (add_txt_record net self domain record_name record_content st) = inr tt ↔
   ∃ r d v, net (sent st) q = GetReturns r ∧
            ¬ (400 ≤ status_code r < 600) ∧
            body r = JsonValue (PyDict d) ∧
            d !! "success" = Some v ∧
            (v = PyBool true ∨ v = PyInt 1 ∨ ∃ x, v = PyFloat x ∧ float_is_one x = true)).
Proof.
  intros Hself q. repeat split.
  - apply add_txt_record_sent, Hself.
  - intros k. apply add_params_lookup.
  - intros H. apply (add_txt_record_returns net self c) in H; [|exact Hself].
    destruct H as (r & d & v & Hnet & Hs & Hb & Hd & Hv).
    exists r, d, v. rewrite <- eq_True_cases. auto.
  - intros (r & d & v & Hnet & Hs & Hb & Hd & Hv).
    apply (add_txt_record_returns net self c); [exact Hself|].
    exists r, d, v. rewrite eq_True_cases. auto.
Qed.

Lemma add_request_and_success_condition_witness :
  heap one_client !! 0%nat = Some (mk_client (PyStr "tok")) ∧
  sent (snd (add_txt_record (always (json_response 200 (PyDict {[ "success" := PyBool true ]})))
               0 example_domain example_name example_value one_client)) =
    (sent one_client ++ [add_request (PyStr "tok") example_name example_value])%list.
Proof.
  assert (H1 : heap one_client !! 0%nat = Some (mk_client (PyStr "tok")))
    by reflexivity.
  split; [exact H1|].
  exact (proj1 (add_request_and_success_condition
                  (always (json_response 200 (PyDict {[ "success" := PyBool true ]})))
                  0%nat (mk_client (PyStr "tok"))
                  example_domain example_name example_value one_client H1)).
Defined.

(** C3 as stated fails in both directions of its success condition: the
    call returns normally on a 200 answer whose success indicator is the
    number one, and on a 300 answer that reports success. *)
Lemma add_succeeds_beyond_2xx_and_true :
  (¬ success_as_specified (json_response 200 (PyDict {[ "success" := PyInt 1 ]})) ∧
   fst (add_txt_record (always (json_response 200 (PyDict {[ "success" := PyInt 1 ]}))) 0
          example_domain example_name example_value one_client) = inr tt) ∧
  (¬ success_as_specified (json_response 300 (PyDict {[ "success" := PyBool true ]})) ∧
   fst (add_txt_record (always (json_response 300 (PyDict {[ "success" := PyBool true ]}))) 0
          example_domain example_name example_value one_client) = inr tt).
Proof.
  split; (split; [|reflexivity]).
  - intros (r & d & [= <-] & _ & [= <-] & H).
    rewrite lookup_singleton_eq in H. discriminate.
  - intros (r & d & [= <-] & Hs & _). cbn in Hs. lia.
Qed.

(** ** The delete request *)

(** C4.  The delete request goes to the same endpoint with the same method
    as the add request; its parameters are those of the add request with
    [value] removed and [action=delete] added; and the record content passed
    to [del_txt_record] has no influence on what it does. *)
Theorem del_request_shape net self c domain record_name record_content st :
  heap st !! self = Some c →
  let qa := add_request (api_token c) record_name record_content in
  let qd := del_request (api_token c) record_name in
  sent (snd (del_txt_record net self domain record_name record_content st)) =
    (sent st ++ [qd])%list ∧
  req_method qd = req_method qa ∧
  req_url qd = req_url qa ∧
  req_params qd = <["action" := PyStr "delete"]> (delete "value" (req_params qa)) ∧
  req_params qd !! "action" = Some (PyStr "delete") ∧
  req_params qd !! "value" = None ∧
  ∀ other_content,
    del_txt_record net self domain record_name other_content st =
    del_txt_record net self domain record_name record_content st.
Proof.
  intros Hself qa qd.
  split; [apply del_txt_record_sent, Hself|].
  split; [reflexivity|]. split; [reflexivity|].
  split; [|split; [|split]].
  - apply map_eq. intros k. unfold qd, qa, del_request, add_request, req_params.
    rewrite lookup_insert, lookup_delete, add_params_lookup, del_params_lookup.
    repeat case_decide; subst; congruence.
  - unfold qd, del_request, req_params. rewrite del_params_lookup. reflexivity.
  - unfold qd, del_request, req_params. rewrite del_params_lookup. reflexivity.
  - intros other_content. reflexivity.
Qed.

Lemma del_request_shape_witness :
  heap one_client !! 0%nat = Some (mk_client (PyStr "tok")) ∧
  sent (snd (del_txt_record (always (GetReturns server_error)) 0
               example_domain example_name example_value one_client)) =
    (sent one_client ++ [del_request (PyStr "tok") example_name])%list.
Proof.
  assert (H1 : heap one_client !! 0%nat = Some (mk_client (PyStr "tok")))
    by reflexivity.
  split; [exact H1|].
  exact (proj1 (del_request_shape (always (GetReturns server_error))
                  0%nat (mk_client (PyStr "tok"))
                  example_domain example_name example_value one_client H1)).
Defined.

(** ** Credentials *)

(** C5.  When the credentials file has no [api-token] entry, credential
    setup raises the host's configuration error and leaves the state as it
    was, so the host's [perform] stops there with no HTTP request issued;
    and as [credentials] is never set, neither [_perform] nor [_cleanup] can
    reach the network. *)
Theorem missing_token_fails_before_any_request net achalls st :
  credentials_file st !! "api-token" = None →
  credentials st = None →
  (∃ msg, _setup_credentials st = (inl (PluginError msg), st) ∧
          perform net achalls st = (inl (PluginError msg), st)) ∧
  sent (snd (perform net achalls st)) = sent st ∧
  ∀ domain validation_name validation,
    sent (snd (_perform net domain validation_name validation st)) = sent st ∧
    sent (snd (_cleanup net domain validation_name validation st)) = sent st.
Proof.
  intros Hfile Hcreds.
  assert (Hsetup : ∃ msg, _setup_credentials st = (inl (PluginError msg), st)).
  { unfold _setup_credentials, _configure_credentials, bind, missing_variables.
    cbn [omap list_omap]. rewrite Hfile. cbn. eauto. }
  destruct Hsetup as [msg Hsetup].
  assert (Hperform : perform net achalls st = (inl (PluginError msg), st)).
  { unfold perform, bind. rewrite Hsetup. reflexivity. }
  split; [eauto|]. split; [rewrite Hperform; reflexivity|].
  intros domain validation_name validation.
  rewrite _perform_eq, _cleanup_eq, _get_do_client_unloaded by exact Hcreds.
  split; reflexivity.
Qed.

Lemma missing_token_fails_before_any_request_witness :
  credentials_file unconfigured !! "api-token" = None ∧
  credentials unconfigured = None ∧
  sent (snd (perform (always (json_response 200 (PyDict {[ "success" := PyBool true ]})))
               [(example_domain, example_name, example_value)] unconfigured)) =
    sent unconfigured.
Proof.
  assert (H1 : credentials_file unconfigured !! "api-token" = None) by reflexivity.
  assert (H2 : credentials unconfigured = None) by reflexivity.
  split; [exact H1 | split; [exact H2|]].
  exact (proj1 (proj2 (missing_token_fails_before_any_request
                         (always (json_response 200 (PyDict {[ "success" := PyBool true ]})))
                         [(example_domain, example_name, example_value)]
                         unconfigured H1 H2))).
Defined.

(** ** The domain argument *)

Lemma add_params_dom token record_name record_content :
  dom (add_params token record_name record_content) =
    ({[ "token"; "domain"; "value" ]} : gset string).
Proof.
  unfold add_params. rewrite !dom_insert_L, dom_singleton_L. set_solver.
Qed.

(** C6.  The [domain] argument of [add_txt_record] has no influence on what
    the call does, and the one request it issues carries the keys [token],
    [domain] and [value] and no other: the token, the record name under
    [domain], and the record content. *)
Theorem add_ignores_domain net self c domain domain' record_name record_content st :
  heap st !! self = Some c →
  add_txt_record net self domain record_name record_content st =
    add_txt_record net self domain' record_name record_content st ∧
  ∃ q,
    sent (snd (add_txt_record net self domain record_name record_content st)) =
      (sent st ++ [q])%list ∧
    dom (req_params q) = ({[ "token"; "domain"; "value" ]} : gset string) ∧
    req_params q !! "token" = Some (api_token c) ∧
    req_params q !! "domain" = Some (PyStr record_name) ∧
    req_params q !! "value" = Some (PyStr record_content).
Proof.
  intros Hself. split; [reflexivity|].
  exists (add_request (api_token c) record_name record_content).
  split; [apply add_txt_record_sent, Hself|].
  split; [apply add_params_dom|].
  unfold add_request, req_params. rewrite !add_params_lookup.
  repeat split.
Qed.

Lemma add_ignores_domain_witness :
  heap one_client !! 0%nat = Some (mk_client (PyStr "tok")) ∧
  add_txt_record (always (GetReturns server_error)) 0
    example_domain example_name example_value one_client =
  add_txt_record (always (GetReturns server_error)) 0
    "another.example.org" example_name example_value one_client.
Proof.
  assert (H1 : heap one_client !! 0%nat = Some (mk_client (PyStr "tok")))
    by reflexivity.
  split; [exact H1|].
  exact (proj1 (add_ignores_domain (always (GetReturns server_error))
                  0%nat (mk_client (PyStr "tok"))
                  example_domain "another.example.org" example_name example_value
                  one_client H1)).
Defined.

(** ** The message of an add-time error *)

Lemma verdict_raises_request r cls msg :
  verdict r = inl (RequestException cls msg) → handled_failure (GetReturns r) msg.
Proof.
  unfold verdict, json.
  destruct (raise_for_status_cases r) as [[Hs ->] | [[Hs ->] | [Hs ->]]].
  - destruct (body r) as [result|m|m] eqn:Hb.
    + intros H. apply not_successful_raises in H. destruct H as [m H]. discriminate.
    + intros [= <- <-]. eapply fail_decode; eassumption.
    + discriminate.
  - intros [= <- <-]. apply fail_client_status, Hs.
  - intros [= <- <-]. apply fail_server_status, Hs.
Qed.

Lemma verdict_failed r :
  verdict r = inr true → handled_failure (GetReturns r) "not successful".
Proof.
  unfold verdict, json.
  destruct (raise_for_status_cases r) as [[Hs ->] | [[Hs ->] | [Hs ->]]];
    try discriminate.
  destruct (body r) as [result|m|m] eqn:Hb; try discriminate.
  intros H. apply not_successful_true in H.
  destruct H as [(d & -> & [Hd | (v & Hd & Hv)]) | [(xs & -> & Hxs) | (s & -> & Hc)]].
  - eapply fail_missing; eassumption.
  - eapply fail_not_true; eassumption.
  - eapply fail_array; eassumption.
  - eapply fail_string; eassumption.
Qed.

(** What escapes the [try] block unhandled is never a [PluginError]. *)
Lemma verdict_raises r e :
  verdict r = inl e →
  (∃ cls msg, e = RequestException cls msg) ∨
  (∃ msg, e = TypeError msg) ∨ (∃ msg, e = ValueError msg).
Proof.
  unfold verdict, json.
  destruct (raise_for_status_cases r) as [[Hs ->] | [[Hs ->] | [Hs ->]]].
  - destruct (body r) as [result|m|m] eqn:Hb.
    + intros H. apply not_successful_raises in H. auto.
    + intros [= <-]. eauto.
    + intros [= <-]. eauto.
  - intros [= <-]. eauto.
  - intros [= <-]. eauto.
Qed.

(** C7 (as amended).  Every [PluginError] that [add_txt_record] raises has
    the message ["Error adding TXT record: "] followed by the cause string:
    the text of the [RequestException] that the transport,
    [raise_for_status] or [json] raised, or ["not successful"].  The message
    is built from the cause alone and is the same whatever [domain] was
    passed. *)
Theorem add_error_message net self c domain record_name record_content st msg :
  heap st !! self = Some c →
  fst (add_txt_record net self domain record_name record_content st) =
    inl (PluginError msg) →
  (∃ cause,
     handled_failure
       (net (sent st) (add_request (api_token c) record_name record_content)) cause ∧
     msg = "Error adding TXT record: " +:+ cause) ∧
  ∀ domain',
    fst (add_txt_record net self domain' record_name record_content st) =
      inl (PluginError msg).
Proof.
  intros Hself Hraise. split; [|intros domain'; exact Hraise].
  rewrite (add_txt_record_eq net self c) in Hraise by exact Hself. cbn zeta in Hraise.
  destruct (net _ _) as [cls m|r] eqn:Hnet.
  - injection Hraise as <-. exists m. split; [constructor | reflexivity].
  - destruct (verdict r) as [e|[]] eqn:Hv.
    + destruct (verdict_raises r e Hv) as [(cls & m & ->) | [(m & ->) | (m & ->)]];
        try discriminate.
      injection Hraise as <-. exists m. split; [|reflexivity].
      eapply verdict_raises_request, Hv.
    + injection Hraise as <-. exists "not successful".
      split; [apply verdict_failed, Hv | reflexivity].
    + discriminate.
Qed.

Lemma add_error_message_witness :
  heap one_client !! 0%nat = Some (mk_client (PyStr "tok")) ∧
  fst (add_txt_record (always (json_response 200 (PyDict {[ "success" := PyBool false ]}))) 0
         example_domain example_name example_value one_client) =
    inl (PluginError "Error adding TXT record: not successful") ∧
  ∃ cause,
    handled_failure
      (always (json_response 200 (PyDict {[ "success" := PyBool false ]}))
         (sent one_client) (add_request (PyStr "tok") example_name example_value)) cause ∧
    "Error adding TXT record: not successful" = "Error adding TXT record: " +:+ cause.
Proof.
  assert (H1 : heap one_client !! 0%nat = Some (mk_client (PyStr "tok")))
    by reflexivity.
  assert (H2 : fst (add_txt_record
                      (always (json_response 200 (PyDict {[ "success" := PyBool false ]}))) 0
                      example_domain example_name example_value one_client) =
               inl (PluginError "Error adding TXT record: not successful"))
    by reflexivity.
  split; [exact H1 | split; [exact H2|]].
  exact (proj1 (add_error_message
                  (always (json_response 200 (PyDict {[ "success" := PyBool false ]})))
                  0%nat (mk_client (PyStr "tok"))
                  example_domain example_name example_value one_client _ H1 H2)).
Defined.

(** C7 as stated fails: for a 200 answer with [success: false] the error
    message is the fixed text ["Error adding TXT record: not successful"],
    in which the domain does not occur. *)
Lemma add_error_omits_domain :
  fst (add_txt_record (always (json_response 200 (PyDict {[ "success" := PyBool false ]}))) 0
         example_domain example_name example_value one_client) =
    inl (PluginError "Error adding TXT record: not successful") ∧
  str_contains example_domain "Error adding TXT record: not successful" = false.
Proof. split; reflexivity. Qed.

(** ** One request per call *)

(** C8.  Whatever the outcome of the exchange, a call of [add_txt_record]
    and a call of [del_txt_record] each extend the list of issued requests
    by exactly one request. *)
Theorem one_request_per_call net self c domain record_name record_content st :
  heap st !! self = Some c →
  (∃ q, sent (snd (add_txt_record net self domain record_name record_content st)) =
          (sent st ++ [q])%list) ∧
  (∃ q, sent (snd (del_txt_record net self domain record_name record_content st)) =
          (sent st ++ [q])%list) ∧
  length (sent (snd (add_txt_record net self domain record_name record_content st))) =
    S (length (sent st)) ∧
  length (sent (snd (del_txt_record net self domain record_name record_content st))) =
    S (length (sent st)).
Proof.
  intros Hself.
  rewrite (add_txt_record_sent net self c), (del_txt_record_sent net self c)
    by exact Hself.
  rewrite !length_app. cbn [length].
  repeat split; eauto; lia.
Qed.

Lemma one_request_per_call_witness :
  heap one_client !! 0%nat = Some (mk_client (PyStr "tok")) ∧
  length (sent (snd (add_txt_record (always (GetRaises Timeout "timed out")) 0
                       example_domain example_name example_value one_client))) =
    S (length (sent one_client)).
Proof.
  assert (H1 : heap one_client !! 0%nat = Some (mk_client (PyStr "tok")))
    by reflexivity.
  split; [exact H1|].
  exact (proj1 (proj2 (proj2 (one_request_per_call
                                (always (GetRaises Timeout "timed out"))
                                0%nat (mk_client (PyStr "tok"))
                                example_domain example_name example_value
                                one_client H1)))).
Defined.

(** ** Equality, not identity, in the success test *)

(** C9.  A 2xx answer whose [success] entry is the integer one -- which is
    not the boolean [true] -- passes the test [result['success'] != True],
    so [add_txt_record] returns normally and logs nothing. *)
Theorem add_accepts_integer_one net self c domain record_name record_content st r d :
  heap st !! self = Some c →
  net (sent st) (add_request (api_token c) record_name record_content) = GetReturns r →
  200 ≤ status_code r < 300 →
  body r = JsonValue (PyDict d) →
  d !! "success" = Some (PyInt 1) →
  PyInt 1 ≠ PyBool true ∧
  ne_True (PyInt 1) = false ∧
  add_txt_record net self domain record_name record_content st =
    (inr tt, record_sent (add_request (api_token c) record_name record_content) st).
Proof.
  intros Hself Hnet Hs Hb Hd.
  split; [discriminate|]. split; [reflexivity|].
  rewrite (add_txt_record_eq net self c) by exact Hself. cbn zeta. rewrite Hnet.
  unfold verdict, json. rewrite raise_for_status_ok by lia.
  rewrite Hb, not_successful_dict, Hd. reflexivity.
Qed.

Lemma add_accepts_integer_one_witness :
  heap one_client !! 0%nat = Some (mk_client (PyStr "tok")) ∧
  200 ≤ 200 < 300 ∧
  add_txt_record (always (json_response 200 (PyDict {[ "success" := PyInt 1 ]}))) 0
    example_domain example_name example_value one_client =
  (inr tt, record_sent (add_request (PyStr "tok") example_name example_value) one_client).
Proof.
  assert (H1 : heap one_client !! 0%nat = Some (mk_client (PyStr "tok")))
    by reflexivity.
  assert (H2 : 200 ≤ 200 < 300) by lia.
  split; [exact H1 | split; [exact H2|]].
  exact (proj2 (proj2 (add_accepts_integer_one
                         (always (json_response 200 (PyDict {[ "success" := PyInt 1 ]})))
                         0%nat (mk_client (PyStr "tok"))
                         example_domain example_name example_value one_client
                         (mk_response 200 "OK" API_URL
                            (JsonValue (PyDict {[ "success" := PyInt 1 ]})))
                         {[ "success" := PyInt 1 ]}
                         H1 eq_refl H2 eq_refl eq_refl))).
Defined.

(** ** Clients are built per call and never written to *)

Lemma add_txt_record_keeps net self domain record_name record_content st :
  heap (snd (add_txt_record net self domain record_name record_content st)) = heap st ∧
  credentials (snd (add_txt_record net self domain record_name record_content st)) =
    credentials st.
Proof.
  destruct (heap st !! self) as [c|] eqn:Hself.
  - rewrite (add_txt_record_eq net self c) by exact Hself. cbn zeta.
    destruct (net _ _) as [cls msg|r]; [split; reflexivity|].
    destruct (verdict r) as [[]|[]]; split; reflexivity.
  - rewrite add_txt_record_dangling by exact Hself. split; reflexivity.
Qed.

Lemma del_txt_record_keeps net self domain record_name record_content st :
  heap (snd (del_txt_record net self domain record_name record_content st)) = heap st ∧
  credentials (snd (del_txt_record net self domain record_name record_content st)) =
    credentials st.
Proof.
  destruct (heap st !! self) as [c|] eqn:Hself.
  - rewrite (del_txt_record_eq net self c) by exact Hself. cbn zeta.
    destruct (net _ _) as [cls msg|r]; [split; reflexivity|].
    destruct (verdict r) as [[]|[]]; split; reflexivity.
  - rewrite del_txt_record_dangling by exact Hself. split; reflexivity.
Qed.

(** C10.  Neither method of the client writes to the object store.  With
    credentials loaded, [_perform] builds its client at an address that was
    not in use, holding the [api-token] of the loaded credentials, and runs
    [add_txt_record] on it; a later [_cleanup] builds another client, at a
    different address and from the same credentials, and runs
    [del_txt_record] on that one, leaving the first client as it was
    built. *)
Theorem client_is_fresh_and_never_modified
    net st creds domain validation_name validation :
  credentials st = Some creds →
  let token := conf creds "api-token" in
  let st1 := snd (_perform net domain validation_name validation st) in
  let st2 := snd (_cleanup net domain validation_name validation st1) in
  (∀ self d n v s,
     heap (snd (add_txt_record net self d n v s)) = heap s ∧
     heap (snd (del_txt_record net self d n v s)) = heap s) ∧
  ∃ c1 c2,
    heap st !! c1 = None ∧
    _perform net domain validation_name validation st =
      add_txt_record net c1 domain validation_name validation
        (set_heap (<[c1 := mk_client token]> (heap st)) st) ∧
    heap st1 = <[c1 := mk_client token]> (heap st) ∧
    credentials st1 = Some creds ∧
    heap st1 !! c2 = None ∧
    c1 ≠ c2 ∧
    _cleanup net domain validation_name validation st1 =
      del_txt_record net c2 domain validation_name validation
        (set_heap (<[c2 := mk_client token]> (heap st1)) st1) ∧
    heap st2 = <[c2 := mk_client token]> (heap st1) ∧
    heap st2 !! c1 = Some (mk_client token).
Proof.
  intros Hcreds token st1 st2.
  split.
  { intros self d n v s. split;
      [apply add_txt_record_keeps | apply del_txt_record_keeps]. }
  assert (Hperform :
    _perform net domain validation_name validation st =
      add_txt_record net (fresh (dom (heap st))) domain validation_name validation
        (set_heap (<[fresh (dom (heap st)) := mk_client token]> (heap st)) st)).
  { rewrite _perform_eq, (_get_do_client_loaded st creds) by exact Hcreds. reflexivity. }
  assert (Hheap1 : heap st1 = <[fresh (dom (heap st)) := mk_client token]> (heap st)).
  { unfold st1. rewrite Hperform.
    rewrite (proj1 (add_txt_record_keeps _ _ _ _ _ _)). reflexivity. }
  assert (Hcreds1 : credentials st1 = Some creds).
  { unfold st1. rewrite Hperform.
    rewrite (proj2 (add_txt_record_keeps _ _ _ _ _ _)). exact Hcreds. }
  assert (Hcleanup :
    _cleanup net domain validation_name validation st1 =
      del_txt_record net (fresh (dom (heap st1))) domain validation_name validation
        (set_heap (<[fresh (dom (heap st1)) := mk_client token]> (heap st1)) st1)).
  { rewrite _cleanup_eq, (_get_do_client_loaded st1 creds) by exact Hcreds1. reflexivity. }
  assert (Hheap2 : heap st2 = <[fresh (dom (heap st1)) := mk_client token]> (heap st1)).
  { unfold st2. rewrite Hcleanup.
    rewrite (proj1 (del_txt_record_keeps _ _ _ _ _ _)). reflexivity. }
  assert (Hne : fresh (dom (heap st)) ≠ fresh (dom (heap st1))).
  { intros Heq. pose proof (fresh_client_unused st1) as Hfresh.
    rewrite <- Heq, Hheap1, lookup_insert_eq in Hfresh. discriminate. }
  exists (fresh (dom (heap st))), (fresh (dom (heap st1))).
  split; [apply fresh_client_unused|].
  split; [exact Hperform|].
  split; [exact Hheap1|].
  split; [exact Hcreds1|].
  split; [apply fresh_client_unused|].
  split; [exact Hne|].
  split; [exact Hcleanup|].
  split; [exact Hheap2|].
  rewrite Hheap2, lookup_insert_ne by (intros Heq; apply Hne; symmetry; exact Heq).
  rewrite Hheap1. apply lookup_insert_eq.
Qed.

Lemma client_is_fresh_and_never_modified_witness :
  credentials loaded = Some {[ "api-token" := "tok" ]} ∧
  ∀ self d n v s,
    heap (snd (add_txt_record (always (GetReturns server_error)) self d n v s)) = heap s ∧
    heap (snd (del_txt_record (always (GetReturns server_error)) self d n v s)) = heap s.
Proof.
  assert (H1 : credentials loaded = Some {[ "api-token" := "tok" ]}) by reflexivity.
  split; [exact H1|].
  exact (proj1 (client_is_fresh_and_never_modified
                  (always (GetReturns server_error)) loaded {[ "api-token" := "tok" ]}
                  example_domain example_name example_value H1)).
Defined.

(** * Further properties of the client and the adapter *)

(** ** The success test of lines 88 and 119 *)

(** X7.  The subscript [result['success']] is guarded by the membership
    test: when the success test raises, it raises a [TypeError] and never a
    [KeyError], and the decoded body was not a JSON object. *)
Theorem success_test_raises_only_TypeError result e :
  not_successful result = inl e →
  (∃ msg, e = TypeError msg) ∧
  (∀ key, e ≠ KeyError key) ∧
  (∀ d, result ≠ PyDict d).
Proof.
  intros H. destruct (not_successful_raises result e H) as [msg ->].
  split; [eauto|]. split; [discriminate|].
  intros d ->. rewrite not_successful_dict in H. discriminate.
Qed.

Lemma success_test_raises_only_TypeError_witness :
  not_successful (PyList [PyStr "success"]) =
    inl (TypeError "list indices must be integers or slices, not str") ∧
  ∀ d, PyList [PyStr "success"] ≠ PyDict d.
Proof.
  assert (H : not_successful (PyList [PyStr "success"]) =
              inl (TypeError "list indices must be integers or slices, not str"))
    by reflexivity.
  split; [exact H|].
  exact (proj2 (proj2 (success_test_raises_only_TypeError _ _ H))).
Defined.

(** ** What can escape the two methods *)






(** ** Logging *)

(** X1.  On every failure its [try] block is written for,
    [del_txt_record] returns normally after its one request, and appends
    exactly one [ERROR] record whose message is
    ["Encountered error deleting TXT record: "] followed by the cause. *)
Theorem del_txt_record_logs_and_returns
    net self c domain record_name record_content st cause :
  heap st !! self = Some c →
  handled_failure (net (sent st) (del_request (api_token c) record_name)) cause →
  fst (del_txt_record net self domain record_name record_content st) = inr tt ∧
  ∃ flag,
    logged (snd (del_txt_record net self domain record_name record_content st)) =
      (logged st ++
       [mk_log "ERROR" ("Encountered error deleting TXT record: " +:+ cause) flag])%list.
Proof.
  intros Hself Hfail.
  destruct (del_txt_record_swallows net self c domain record_name record_content st cause)
    as [flag ->]; [assumption | assumption |].
  split; [reflexivity|]. exists flag. reflexivity.
Qed.

Lemma del_txt_record_logs_and_returns_witness :
  heap one_client !! 0%nat = Some (mk_client (PyStr "tok")) ∧
  handled_failure
    (always (GetRaises ConnectionError "connection refused") (sent one_client)
       (del_request (PyStr "tok") example_name))
    "connection refused" ∧
  fst (del_txt_record (always (GetRaises ConnectionError "connection refused")) 0
         example_domain example_name example_value one_client) = inr tt.
Proof.
  assert (H1 : heap one_client !! 0%nat = Some (mk_client (PyStr "tok")))
    by reflexivity.
  assert (H2 : handled_failure
                 (always (GetRaises ConnectionError "connection refused")
                    (sent one_client)
                    (del_request (api_token (mk_client (PyStr "tok"))) example_name))
                 "connection refused")
    by apply fail_network.
  split; [exact H1 | split; [exact H2|]].
  exact (proj1 (del_txt_record_logs_and_returns
                  (always (GetRaises ConnectionError "connection refused"))
                  0%nat (mk_client (PyStr "tok"))
                  example_domain example_name example_value one_client _ H1 H2)).
Defined.

(** X4.  [add_txt_record] logs exactly when it raises a [PluginError]:
    the error is preceded by one [ERROR] record carrying the same cause, and
    on every other outcome -- a normal return or an escaping [TypeError] or
    [ValueError] -- the log is left as it was. *)
Theorem add_txt_record_logs_iff_PluginError
    net self c domain record_name record_content st :
  heap st !! self = Some c →
  match fst (add_txt_record net self domain record_name record_content st) with
  | inl (PluginError msg) =>
      ∃ cause flag,
        msg = "Error adding TXT record: " +:+ cause ∧
        logged (snd (add_txt_record net self domain record_name record_content st)) =
          (logged st ++
           [mk_log "ERROR" ("Encountered error adding TXT record: " +:+ cause) flag])%list
  | _ =>
      logged (snd (add_txt_record net self domain record_name record_content st)) =
        logged st
  end.
Proof.
  intros Hself. rewrite (add_txt_record_eq net self c) by exact Hself. cbn zeta.
  destruct (net _ _) as [cls m|r] eqn:Hnet; [cbn; eauto|].
  destruct (verdict r) as [e0|[]] eqn:Hv; [|cbn; eauto | reflexivity].
  destruct (verdict_raises r e0 Hv) as [(cls & m & ->) | [(m & ->) | (m & ->)]];
    cbn; eauto.
Qed.

Lemma add_txt_record_logs_iff_PluginError_witness :
  heap one_client !! 0%nat = Some (mk_client (PyStr "tok")) ∧
  match fst (add_txt_record (always (GetReturns server_error)) 0
               example_domain example_name example_value one_client) with
  | inl (PluginError msg) =>
      ∃ cause flag,
        msg = "Error adding TXT record: " +:+ cause ∧
        logged (snd (add_txt_record (always (GetReturns server_error)) 0
                       example_domain example_name example_value one_client)) =
          (logged one_client ++
           [mk_log "ERROR" ("Encountered error adding TXT record: " +:+ cause) flag])%list
  | _ =>
      logged (snd (add_txt_record (always (GetReturns server_error)) 0
                     example_domain example_name example_value one_client)) =
        logged one_client
  end.
Proof.
  assert (H1 : heap one_client !! 0%nat = Some (mk_client (PyStr "tok")))
    by reflexivity.
  split; [exact H1|].
  exact (add_txt_record_logs_iff_PluginError
           (always (GetReturns server_error)) 0%nat (mk_client (PyStr "tok"))
           example_domain example_name example_value one_client H1).
Defined.

(** A handled failure and a success exclude each other, and neither goes
    with an exception that escapes the [try] block. *)
Lemma verdict_of_handled r cause :
  handled_failure (GetReturns r) cause →
  (∃ cls msg, verdict r = inl (RequestException cls msg)) ∨ verdict r = inr true.
Proof.
  intros H. destruct (verdict_failure r cause H) as [[cls Hv] | [Hv _]]; eauto.
Qed.

Lemma del_txt_record_returns net self c domain record_name record_content st :
  heap st !! self = Some c →
  fst (del_txt_record net self domain record_name record_content st) = inr tt ↔
  success_in_code (net (sent st) (del_request (api_token c) record_name)) ∨
  ∃ cause, handled_failure (net (sent st) (del_request (api_token c) record_name)) cause.
Proof.
  intros Hself. rewrite (del_txt_record_eq net self c) by exact Hself. cbn zeta.
  destruct (net _ _) as [cls m|r] eqn:Hnet.
  - split; [|reflexivity]. intros _. right. exists m. constructor.
  - destruct (verdict r) as [e0|[]] eqn:Hv.
    + destruct (verdict_raises r e0 Hv) as [(cls & m & ->) | [(m & ->) | (m & ->)]].
      * split; [|reflexivity]. intros _. right. exists m.
        eapply verdict_raises_request, Hv.
      * split; [discriminate|].
        intros [Hok | [cause Hf]].
        -- apply verdict_success in Hok. congruence.
        -- destruct (verdict_of_handled r cause Hf) as [(cls & m' & Hv') | Hv'];
             congruence.
      * split; [discriminate|].
        intros [Hok | [cause Hf]].
        -- apply verdict_success in Hok. congruence.
        -- destruct (verdict_of_handled r cause Hf) as [(cls & m' & Hv') | Hv'];
             congruence.
    + split; [|reflexivity]. intros _. right. exists "not successful".
      apply verdict_failed, Hv.
    + split; [|reflexivity]. intros _. left. apply verdict_success, Hv.
Qed.

(** X9.  A silent normal return of [del_txt_record] means that the
    provider acknowledged the deletion: the call returns without having
    logged anything if and only if the response has an accepted status and
    a body that decodes to an object whose [success] entry equals [True]. *)
Theorem del_txt_record_silent_iff_success
    net self c domain record_name record_content st :
  heap st !! self = Some c →
  (fst (del_txt_record net self domain record_name record_content st) = inr tt ∧
   logged (snd (del_txt_record net self domain record_name record_content st)) =
     logged st) ↔
  success_in_code (net (sent st) (del_request (api_token c) record_name)).
Proof.
  intros Hself. rewrite (del_txt_record_eq net self c) by exact Hself. cbn zeta.
  assert (Hgrow : ∀ (l : list log_record) x, (l ++ [x])%list ≠ l).
  { intros l x H. apply (f_equal length) in H. rewrite length_app in H.
    cbn in H. lia. }
  destruct (net _ _) as [cls m|r] eqn:Hnet.
  - split.
    + intros [_ H]. cbn in H. apply Hgrow in H. destruct H.
    + intros (r & d & v & [=] & _).
  - rewrite <- verdict_success.
    destruct (verdict r) as [e0|[]] eqn:Hv.
    + split; [|discriminate].
      destruct e0; cbn; intros [H1 H2]; try discriminate.
      apply Hgrow in H2. destruct H2.
    + split; [|discriminate]. cbn. intros [_ H]. apply Hgrow in H. destruct H.
    + split; [reflexivity|]. intros _. split; reflexivity.
Qed.

Lemma del_txt_record_silent_iff_success_witness :
  heap one_client !! 0%nat = Some (mk_client (PyStr "tok")) ∧
  ((fst (del_txt_record (always (json_response 200 (PyDict {[ "success" := PyBool true ]})))
           0 example_domain example_name example_value one_client) = inr tt ∧
    logged (snd (del_txt_record
                   (always (json_response 200 (PyDict {[ "success" := PyBool true ]})))
                   0 example_domain example_name example_value one_client)) =
      logged one_client) ↔
   success_in_code
     (always (json_response 200 (PyDict {[ "success" := PyBool true ]}))
        (sent one_client) (del_request (PyStr "tok") example_name))).
Proof.
  assert (H1 : heap one_client !! 0%nat = Some (mk_client (PyStr "tok")))
    by reflexivity.
  split; [exact H1|].
  exact (del_txt_record_silent_iff_success
           (always (json_response 200 (PyDict {[ "success" := PyBool true ]})))
           0%nat (mk_client (PyStr "tok"))
           example_domain example_name example_value one_client H1).
Defined.

(** ** The two methods side by side *)

(** X5.  When the provider answers the delete request as it answers the
    add request, [del_txt_record] ends as [add_txt_record] does, except that
    where [add_txt_record] raises a [PluginError] it returns normally: the
    two share their failure detection and differ only in what they do with
    a detected failure.  Both log the same number of records. *)
Theorem del_mirrors_add net self c domain record_name record_content st :
  heap st !! self = Some c →
  net (sent st) (del_request (api_token c) record_name) =
    net (sent st) (add_request (api_token c) record_name record_content) →
  fst (del_txt_record net self domain record_name record_content st) =
    match fst (add_txt_record net self domain record_name record_content st) with
    | inl (PluginError _) => inr tt
    | other => other
    end ∧
  length (logged (snd (del_txt_record net self domain record_name record_content st))) =
    length (logged (snd (add_txt_record net self domain record_name record_content st))).
Proof.
  intros Hself Hsame.
  pose proof (add_txt_record_eq net self c domain record_name record_content st Hself)
    as Hadd.
  pose proof (del_txt_record_eq net self c domain record_name record_content st Hself)
    as Hdel.
  cbv zeta in Hadd, Hdel. rewrite Hsame in Hdel. rewrite Hadd, Hdel.
  clear Hadd Hdel Hsame.
  destruct (net (sent st) (add_request (api_token c) record_name record_content))
    as [cls m|r] eqn:Hnet.
  - split; [reflexivity|]. cbn. rewrite !length_app. reflexivity.
  - destruct (verdict r) as [e0|[]] eqn:Hv.
    + destruct (verdict_raises r e0 Hv) as [(cls & m & ->) | [(m & ->) | (m & ->)]];
        (split; [reflexivity|]); cbn; rewrite ?length_app; reflexivity.
    + split; [reflexivity|]. cbn. rewrite !length_app. reflexivity.
    + split; reflexivity.
Qed.

Lemma del_mirrors_add_witness :
  heap one_client !! 0%nat = Some (mk_client (PyStr "tok")) ∧
  always (GetReturns server_error) (sent one_client)
      (del_request (PyStr "tok") example_name) =
    always (GetReturns server_error) (sent one_client)
      (add_request (PyStr "tok") example_name example_value) ∧
  fst (del_txt_record (always (GetReturns server_error)) 0
         example_domain example_name example_value one_client) =
    match fst (add_txt_record (always (GetReturns server_error)) 0
                 example_domain example_name example_value one_client) with
    | inl (PluginError _) => inr tt
    | other => other
    end.
Proof.
  assert (H1 : heap one_client !! 0%nat = Some (mk_client (PyStr "tok")))
    by reflexivity.
  assert (H2 : always (GetReturns server_error) (sent one_client)
                 (del_request (api_token (mk_client (PyStr "tok"))) example_name) =
               always (GetReturns server_error) (sent one_client)
                 (add_request (api_token (mk_client (PyStr "tok")))
                    example_name example_value))
    by reflexivity.
  split; [exact H1 | split; [exact H2|]].
  exact (proj1 (del_mirrors_add (always (GetReturns server_error))
                  0%nat (mk_client (PyStr "tok"))
                  example_domain example_name example_value one_client H1 H2)).
Defined.

(** X8.  What a call does depends on the client only through its token and
    on the state only through the requests issued before: two clients with
    the same token, in states with the same request history, get the same
    result from [add_txt_record] and from [del_txt_record], issue the same
    request and log the same number of records, whatever else the states
    hold. *)
Theorem calls_depend_on_token_and_history
    net self self' c c' domain record_name record_content st st' :
  heap st !! self = Some c →
  heap st' !! self' = Some c' →
  api_token c = api_token c' →
  sent st = sent st' →
  fst (add_txt_record net self domain record_name record_content st) =
    fst (add_txt_record net self' domain record_name record_content st') ∧
  sent (snd (add_txt_record net self domain record_name record_content st)) =
    sent (snd (add_txt_record net self' domain record_name record_content st')) ∧
  fst (del_txt_record net self domain record_name record_content st) =
    fst (del_txt_record net self' domain record_name record_content st') ∧
  sent (snd (del_txt_record net self domain record_name record_content st)) =
    sent (snd (del_txt_record net self' domain record_name record_content st')).
Proof.
  intros Hself Hself' Htoken Hsent.
  rewrite (add_txt_record_eq net self c), (del_txt_record_eq net self c)
    by exact Hself.
  rewrite (add_txt_record_eq net self' c'), (del_txt_record_eq net self' c')
    by exact Hself'.
  cbn zeta. rewrite <- Htoken, <- Hsent.
  split; [|split; [|split]].
  - destruct (net _ _) as [cls m|r]; [reflexivity|].
    destruct (verdict r) as [[]|[]]; reflexivity.
  - destruct (net _ _) as [cls m|r]; [cbn; rewrite Hsent; reflexivity|].
    destruct (verdict r) as [[]|[]]; cbn; rewrite Hsent; reflexivity.
  - destruct (net _ _) as [cls m|r]; [reflexivity|].
    destruct (verdict r) as [[]|[]]; reflexivity.
  - destruct (net _ _) as [cls m|r]; [cbn; rewrite Hsent; reflexivity|].
    destruct (verdict r) as [[]|[]]; cbn; rewrite Hsent; reflexivity.
Qed.

Lemma calls_depend_on_token_and_history_witness :
  heap one_client !! 0%nat = Some (mk_client (PyStr "tok")) ∧
  heap (record_logged (mk_log "ERROR" "earlier" false)
          (set_heap {[ 7%nat := mk_client (PyStr "tok") ]} loaded)) !! 7%nat =
    Some (mk_client (PyStr "tok")) ∧
  fst (add_txt_record (always (GetReturns server_error)) 0
         example_domain example_name example_value one_client) =
  fst (add_txt_record (always (GetReturns server_error)) 7
         example_domain example_name example_value
         (record_logged (mk_log "ERROR" "earlier" false)
            (set_heap {[ 7%nat := mk_client (PyStr "tok") ]} loaded))).
Proof.
  assert (H1 : heap one_client !! 0%nat = Some (mk_client (PyStr "tok")))
    by reflexivity.
  assert (H2 : heap (record_logged (mk_log "ERROR" "earlier" false)
                       (set_heap {[ 7%nat := mk_client (PyStr "tok") ]} loaded))
                 !! 7%nat = Some (mk_client (PyStr "tok")))
    by reflexivity.
  split; [exact H1 | split; [exact H2|]].
  exact (proj1 (calls_depend_on_token_and_history
                  (always (GetReturns server_error)) 0%nat 7%nat
                  (mk_client (PyStr "tok")) (mk_client (PyStr "tok"))
                  example_domain example_name example_value one_client
                  (record_logged (mk_log "ERROR" "earlier" false)
                     (set_heap {[ 7%nat := mk_client (PyStr "tok") ]} loaded))
                  H1 H2 eq_refl eq_refl)).
Defined.

(** ** The adapter, end to end *)

Lemma _perform_loaded net st creds domain validation_name validation :
  credentials st = Some creds →
  let self := fresh (dom (heap st)) in
  let st' := set_heap (<[self := mk_client (conf creds "api-token")]> (heap st)) st in
  heap st' !! self = Some (mk_client (conf creds "api-token")) ∧
  sent st' = sent st ∧ logged st' = logged st ∧
  _perform net domain validation_name validation st =
    add_txt_record net self domain validation_name validation st'.
Proof.
  intros Hcreds self st'.
  split; [apply lookup_insert_eq|]. split; [reflexivity|]. split; [reflexivity|].
  rewrite _perform_eq, (_get_do_client_loaded st creds) by exact Hcreds. reflexivity.
Qed.

Lemma _cleanup_loaded net st creds domain validation_name validation :
  credentials st = Some creds →
  let self := fresh (dom (heap st)) in
  let st' := set_heap (<[self := mk_client (conf creds "api-token")]> (heap st)) st in
  heap st' !! self = Some (mk_client (conf creds "api-token")) ∧
  sent st' = sent st ∧ logged st' = logged st ∧
  _cleanup net domain validation_name validation st =
    del_txt_record net self domain validation_name validation st'.
Proof.
  intros Hcreds self st'.
  split; [apply lookup_insert_eq|]. split; [reflexivity|]. split; [reflexivity|].
  rewrite _cleanup_eq, (_get_do_client_loaded st creds) by exact Hcreds. reflexivity.
Qed.

(** X6.  With credentials loaded, a [_perform] followed by a [_cleanup]
    issues exactly two requests, in this order and whatever the provider
    answers: the add request and the delete request, both carrying the
    [api-token] of the loaded credentials. *)
Theorem perform_then_cleanup_requests
    net st creds domain validation_name validation
    domain' validation_name' validation' :
  credentials st = Some creds →
  let token := conf creds "api-token" in
  let st1 := snd (_perform net domain validation_name validation st) in
  let st2 := snd (_cleanup net domain' validation_name' validation' st1) in
  sent st1 = (sent st ++ [add_request token validation_name validation])%list ∧
  sent st2 = (sent st ++ [add_request token validation_name validation;
                          del_request token validation_name'])%list.
Proof.
  intros Hcreds token st1 st2.
  destruct (_perform_loaded net st creds domain validation_name validation Hcreds)
    as (Hself & Hsent & _ & Hperform).
  assert (H1 : sent st1 =
               (sent st ++ [add_request token validation_name validation])%list).
  { unfold st1. rewrite Hperform.
    rewrite (add_txt_record_sent net _ _ _ _ _ _ Hself). rewrite Hsent. reflexivity. }
  assert (Hcreds1 : credentials st1 = Some creds).
  { unfold st1. rewrite Hperform.
    rewrite (proj2 (add_txt_record_keeps _ _ _ _ _ _)). exact Hcreds. }
  destruct (_cleanup_loaded net st1 creds domain' validation_name' validation' Hcreds1)
    as (Hself1 & Hsent1 & _ & Hcleanup).
  split; [exact H1|].
  unfold st2. rewrite Hcleanup.
  rewrite (del_txt_record_sent net _ _ _ _ _ _ Hself1). rewrite Hsent1, H1.
  rewrite <- app_assoc. reflexivity.
Qed.

Lemma perform_then_cleanup_requests_witness :
  credentials loaded = Some {[ "api-token" := "tok" ]} ∧
  sent (snd (_perform (always (GetReturns server_error))
               example_domain example_name example_value loaded)) =
    (sent loaded ++
     [add_request (conf {[ "api-token" := "tok" ]} "api-token")
        example_name example_value])%list.
Proof.
  assert (H1 : credentials loaded = Some {[ "api-token" := "tok" ]}) by reflexivity.
  split; [exact H1|].
  exact (proj1 (perform_then_cleanup_requests
                  (always (GetReturns server_error)) loaded {[ "api-token" := "tok" ]}
                  example_domain example_name example_value
                  example_domain example_name example_value H1)).
Defined.

(** X10.  With credentials loaded, [_perform] returns normally if and only
    if the provider answers the add request built from the loaded
    [api-token] with an accepted status and an object whose [success] entry
    equals [True]. *)
Theorem _perform_returns_iff_success net st creds domain validation_name validation :
  credentials st = Some creds →
  fst (_perform net domain validation_name validation st) = inr tt ↔
  success_in_code
    (net (sent st) (add_request (conf creds "api-token") validation_name validation)).
Proof.
  intros Hcreds.
  destruct (_perform_loaded net st creds domain validation_name validation Hcreds)
    as (Hself & Hsent & _ & Hperform).
  rewrite Hperform, (add_txt_record_returns net _ _ _ _ _ _ Hself), Hsent.
  reflexivity.
Qed.

Lemma _perform_returns_iff_success_witness :
  credentials loaded = Some {[ "api-token" := "tok" ]} ∧
  (fst (_perform (always (json_response 200 (PyDict {[ "success" := PyBool true ]})))
          example_domain example_name example_value loaded) = inr tt ↔
   success_in_code
     (always (json_response 200 (PyDict {[ "success" := PyBool true ]})) (sent loaded)
        (add_request (conf {[ "api-token" := "tok" ]} "api-token")
           example_name example_value))).
Proof.
  assert (H1 : credentials loaded = Some {[ "api-token" := "tok" ]}) by reflexivity.
  split; [exact H1|].
  exact (_perform_returns_iff_success
           (always (json_response 200 (PyDict {[ "success" := PyBool true ]})))
           loaded {[ "api-token" := "tok" ]}
           example_domain example_name example_value H1).
Defined.

(** X11.  With credentials loaded, [_cleanup] returns normally if and only
    if the exchange succeeded or failed in one of the ways the [try] block
    of [del_txt_record] is written for; it raises in no other case than an
    exception escaping that block. *)
Theorem _cleanup_returns_iff_handled net st creds domain validation_name validation :
  credentials st = Some creds →
  fst (_cleanup net domain validation_name validation st) = inr tt ↔
  success_in_code
    (net (sent st) (del_request (conf creds "api-token") validation_name)) ∨
  ∃ cause,
    handled_failure
      (net (sent st) (del_request (conf creds "api-token") validation_name)) cause.
Proof.
  intros Hcreds.
  destruct (_cleanup_loaded net st creds domain validation_name validation Hcreds)
    as (Hself & Hsent & _ & Hcleanup).
  rewrite Hcleanup, (del_txt_record_returns net _ _ _ _ _ _ Hself), Hsent.
  reflexivity.
Qed.

Lemma _cleanup_returns_iff_handled_witness :
  credentials loaded = Some {[ "api-token" := "tok" ]} ∧
  (fst (_cleanup (always (GetReturns server_error))
          example_domain example_name example_value loaded) = inr tt ↔
   success_in_code
     (always (GetReturns server_error) (sent loaded)
        (del_request (conf {[ "api-token" := "tok" ]} "api-token") example_name)) ∨
   ∃ cause,
     handled_failure
       (always (GetReturns server_error) (sent loaded)
          (del_request (conf {[ "api-token" := "tok" ]} "api-token") example_name))
       cause).
Proof.
  assert (H1 : credentials loaded = Some {[ "api-token" := "tok" ]}) by reflexivity.
  split; [exact H1|].
  exact (_cleanup_returns_iff_handled
           (always (GetReturns server_error)) loaded {[ "api-token" := "tok" ]}
           example_domain example_name example_value H1).
Defined.
